(** * The [my-rule] ESLint rule: disallow [var] declarations

    A shallow embedding of [lib/rules/my-rule.js] and of the part of its
    test file that fixes the expected behaviour, followed by the
    properties the rule is expected to have.

    The rule is a plain object with two members: [meta], a literal
    description of the rule, and [create], a factory that receives the
    engine's rule context and returns the listeners of the rule, keyed
    by the type of the syntax node they want to see.  The one listener,
    [VariableDeclaration], reads [node.kind] and calls [context.report]
    when it is the string ["var"].

    The last part embeds the configuration module with which the
    repository lints itself, an object literal built with spreads from
    three imported packages. *)

From stdpp Require Import gmap strings list fin_maps pretty.

(** ** JavaScript values *)

(** The values that occur in a syntax tree and in the rule's metadata.
    Objects are finite maps from property names to values, as the code
    uses them; the payload of a number is never inspected by the rule,
    integer literals are all the inputs of the test file need. *)
#[local] Set Warnings "-register-all".

Inductive value : Type :=
  | VUndefined
  | VNull
  | VBoolean (b : bool)
  | VNumber (n : Z)
  | VString (s : string)
  | VArray (items : list value)
  | VObject (props : gmap string value).

(** An abrupt completion: the only exception the rule's own code can
    raise is the [TypeError] of a property read on [undefined] or
    [null]; [Raised] carries whatever the engine's callback throws. *)
Inductive exception : Type :=
  | TypeError (what : string)
  | Raised (what : value).

#[local] Set Warnings "register-all".

Inductive completion (A : Type) : Type :=
  | Normal (a : A)
  | Throw (e : exception).

Arguments Normal {A} a.
Arguments Throw {A} e.

(** [o.p] for a property name [p].  Reading a property of [undefined]
    or [null] throws; an object yields the property or [undefined].  The
    other values are primitives and arrays: what their prototypes supply
    ([length], indices, methods) is left out, none of it is named [kind]
    or [type], the two names read below.  Syntax nodes are plain data:
    no getters, no proxies. *)
Definition Get (o : value) (p : string) : completion value :=
  match o with
  | VUndefined =>
      Throw (TypeError ("Cannot read properties of undefined (reading '" +:+ p +:+ "')"))
  | VNull =>
      Throw (TypeError ("Cannot read properties of null (reading '" +:+ p +:+ "')"))
  | VObject props => Normal (default VUndefined (props !! p))
  | _ => Normal VUndefined
  end.

(** [v === s] for a string literal [s]: true exactly when [v] is a
    string with the same characters; no conversion takes place. *)
Definition strict_equals_string (v : value) (s : string) : bool :=
  match v with
  | VString t => bool_decide (t = s)
  | _ => false
  end.

(** ** Computations of the rule

    A listener runs inside the engine: it may change the engine's state
    (only through the callbacks the engine hands out) and it may throw.
    [World] is the state of the engine, of which the rule knows
    nothing. *)
Definition js (World A : Type) : Type := World → completion A * World.

Section Computations.
Context {World : Type}.

#[export] Instance js_ret : MRet (js World) :=
  λ A (a : A) w, (Normal a, w).

#[export] Instance js_bind : MBind (js World) :=
  λ A B (k : A → js World B) (m : js World A) w,
    match m w with
    | (Normal a, w') => k a w'
    | (Throw e, w') => (Throw e, w')
    end.

(** A pure step that may throw. *)
Definition lift {A : Type} (c : completion A) : js World A :=
  λ w, (c, w).

(** The rule context the engine passes to [create].  The rule uses one
    member of it, [context.report(node, message)]. *)
Record RuleContext : Type := {
  report : value → string → js World unit
}.

(** *** [lib/rules/my-rule.js] *)

(** The listener of the rule,
    [function (node) { if (node.kind === "var") { context.report(node, "...") } }],
    a closure over the [context] that [create] received. *)
Definition VariableDeclaration (context : RuleContext) (node : value)
  : js World unit :=
  kind ← lift (Get node "kind");
  if strict_equals_string kind "var"
  then report context node "Unexpected var, use let or const instead."
  else mret tt.

(** [create: function (context) { return { VariableDeclaration: ... } }].
    The returned object is used as a map from node types to listeners. *)
Definition create (context : RuleContext)
  : gmap string (value → js World unit) :=
  {[ "VariableDeclaration" := VariableDeclaration context ]}.

(** *** The engine's side *)

(** Modelled from the spec: the engine that walks the syntax tree is not
    part of the repository.  For each node it visits, it invokes the
    listener registered for the node's kind, if there is one, passing
    the node. *)
Definition dispatch (listeners : gmap string (value → js World unit))
    (node : value) : js World unit :=
  match Get node "type" with
  | Normal (VString t) =>
      match listeners !! t with
      | Some listener => listener node
      | None => mret tt
      end
  | _ => mret tt
  end.

(** Modelled from the spec: one traversal pass, given the nodes in the
    order the engine visits them; synchronous, one node at a time. *)
Fixpoint traverse (listeners : gmap string (value → js World unit))
    (nodes : list value) : js World unit :=
  match nodes with
  | [] => mret tt
  | node :: rest => dispatch listeners node ;; traverse listeners rest
  end.

End Computations.

Arguments RuleContext World : clear implicits.

(** [meta: { type: "problem", docs: { ... }, schema: [] }] *)
Definition meta : value :=
  VObject {[
    "type" := VString "problem";
    "docs" := VObject {[
      "description" := VString "disallow the use of 'var'";
      "category" := VString "Best Practices";
      "recommended" := VBoolean true ]};
    "schema" := VArray [] ]}.

(** The shape of a rule module: [{ meta, create }]. *)
Module Rule.
Record t (World : Type) : Type := {
  meta : value;
  create : RuleContext World → gmap string (value → js World unit)
}.
Arguments meta {World} _.
Arguments create {World} _ _.
End Rule.

(** [const plugin = { meta: ..., create: ... }; export default plugin;] *)
Definition plugin {World : Type} : Rule.t World :=
  {| Rule.meta := meta; Rule.create := create |}.

(** ** A reporting interface that keeps what it is told

    A diagnostic is what one call of [context.report] hands over: the
    node and the message. *)
Record diagnostic : Type := {
  diag_node : value;
  diag_message : string
}.

(** The context whose [report] appends its arguments to the list of the
    diagnostics received so far, and does nothing else.  The state of
    the engine is that list: one entry per call. *)
Definition recorder : RuleContext (list diagnostic) :=
  {| report node message :=
       λ log, (Normal tt, log ++ [{| diag_node := node; diag_message := message |}]) |}.

(** The diagnostics of one visit of [node], starting from nothing. *)
Definition emitted (node : value) : list diagnostic :=
  snd (VariableDeclaration recorder node []).

(** ** Syntax trees of the test file

    The nodes the parser yields for the snippets of
    [tests/lib/rules/my-rule.js], with the members ESTree gives them. *)
Definition range (first last : Z) : value :=
  VArray [VNumber first; VNumber last].

Definition Identifier (name : string) (first last : Z) : value :=
  VObject {[ "type" := VString "Identifier"; "name" := VString name;
             "range" := range first last ]}.

Definition Literal (n : Z) (raw : string) (first last : Z) : value :=
  VObject {[ "type" := VString "Literal"; "value" := VNumber n;
             "raw" := VString raw; "range" := range first last ]}.

Definition VariableDeclarator (id init : value) (first last : Z) : value :=
  VObject {[ "type" := VString "VariableDeclarator"; "id" := id;
             "init" := init; "range" := range first last ]}.

Definition Declaration (kind : string) (declarations : list value)
    (first last : Z) : value :=
  VObject {[ "type" := VString "VariableDeclaration";
             "declarations" := VArray declarations;
             "kind" := VString kind; "range" := range first last ]}.

Definition Program (body : list value) (first last : Z) : value :=
  VObject {[ "type" := VString "Program"; "body" := VArray body;
             "sourceType" := VString "script"; "range" := range first last ]}.

(** [let x = 5;] *)
Definition let_x : value :=
  Declaration "let"
    [VariableDeclarator (Identifier "x" 4 5) (Literal 5 "5" 8 9) 4 9] 0 10.

(** [const y = 10;] *)
Definition const_y : value :=
  Declaration "const"
    [VariableDeclarator (Identifier "y" 6 7) (Literal 10 "10" 10 12) 6 12] 0 14.

(** [var z = 15;] *)
Definition var_z : value :=
  Declaration "var"
    [VariableDeclarator (Identifier "z" 4 5) (Literal 15 "15" 8 10) 4 10] 0 11.

(** [var a = 1; var b = 2;] *)
Definition var_a : value :=
  Declaration "var"
    [VariableDeclarator (Identifier "a" 4 5) (Literal 1 "1" 8 9) 4 9] 0 10.

Definition var_b : value :=
  Declaration "var"
    [VariableDeclarator (Identifier "b" 15 16) (Literal 2 "2" 19 20) 15 20] 11 21.

Definition var_a_var_b : value := Program [var_a; var_b] 0 21.

(** The nodes of [var_a_var_b] in the order of a depth-first walk. *)
Definition var_a_var_b_nodes : list value :=
  [ var_a_var_b;
    var_a; VariableDeclarator (Identifier "a" 4 5) (Literal 1 "1" 8 9) 4 9;
    Identifier "a" 4 5; Literal 1 "1" 8 9;
    var_b; VariableDeclarator (Identifier "b" 15 16) (Literal 2 "2" 19 20) 15 20;
    Identifier "b" 15 16; Literal 2 "2" 19 20 ].

(** Well-formed input of the listener: the node is an object and has a
    [kind] member, as the parser guarantees for variable declarations. *)
Definition carries_kind (node : value) : Prop :=
  match node with
  | VObject props => is_Some (props !! "kind")
  | _ => False
  end.

(** A node that makes the rule report: its [type] is the string
    ["VariableDeclaration"], which selects the listener, and its [kind]
    is the string ["var"]. *)
Definition declares_var (node : value) : bool :=
  match Get node "type", Get node "kind" with
  | Normal type, Normal kind =>
      strict_equals_string type "VariableDeclaration"
      && strict_equals_string kind "var"
  | _, _ => false
  end.

(** The arguments of the one [context.report] call for [node]. *)
Definition unexpected_var (node : value) : diagnostic :=
  {| diag_node := node;
     diag_message := "Unexpected var, use let or const instead." |}.

(** ** The repository's own ESLint configuration

    The module evaluates one expression, a call of [tsEslint.config]
    with two arguments built from what it imports: [globals], [eslint]
    and [jest], the default exports of [globals], [@eslint/js] and
    [eslint-plugin-jest].  Evaluating it has no effect but may throw.
    The members it reads ([configs], [recommended], [flat/recommended],
    [rules], [browser]) are, like [kind] and [type], names that no
    prototype supplies, so that [Get] serves for them too. *)

#[export] Instance completion_ret : MRet completion :=
  λ A (a : A), Normal a.

#[export] Instance completion_bind : MBind completion :=
  λ A B (k : A → completion B) (m : completion A),
    match m with
    | Normal a => k a
    | Throw e => Throw e
    end.

(** The members of an array, under their indices written in decimal. *)
Definition indexed (items : list value) : gmap string value :=
  list_to_map (imap (λ (i : nat) item, (pretty i, item)) items).

(** The characters of a string, each a string of its own. *)
Definition characters (s : string) : list value :=
  (λ c, VString (String c EmptyString)) <$> String.list_ascii_of_string s.

(** What [{ ...v }] copies: the own enumerable members of [v].
    [undefined], [null], booleans and numbers have none; an array and a
    string have their indexed members, not their [length]. *)
Definition spread (v : value) : gmap string value :=
  match v with
  | VObject props => props
  | VArray items => indexed items
  | VString s => indexed (characters s)
  | VUndefined | VNull | VBoolean _ | VNumber _ => ∅
  end.

(** [jest.configs["flat/recommended"]] *)
Definition flat_recommended (jest : value) : completion value :=
  configs ← Get jest "configs";
  Get configs "flat/recommended".

(** [{ parserOptions: { ecmaVersion: "latest" },
       globals: { jest: true, ...globals.browser } }]:
    the members of [globals.browser] are set after [jest: true]. *)
Definition languageOptions (globals : value) : completion value :=
  browser ← Get globals "browser";
  mret (VObject {[
    "parserOptions" := VObject {[ "ecmaVersion" := VString "latest" ]};
    "globals" := VObject (spread browser ∪ {[ "jest" := VBoolean true ]}) ]}).

(** The second argument,
    [{ files: ["tests/**"], ...jest.configs["flat/recommended"],
       rules: { ...jest.configs["flat/recommended"].rules },
       languageOptions: { ... } }].
    Members are set in the order written, a later one replacing an
    earlier one of the same name. *)
Definition tests_config (globals jest : value) : completion value :=
  recommended ← flat_recommended jest;
  rules ← (again ← flat_recommended jest; Get again "rules");
  options ← languageOptions globals;
  mret (VObject
    (<[ "languageOptions" := options ]>
      (<[ "rules" := VObject (spread rules) ]>
        (spread recommended ∪ {[ "files" := VArray [VString "tests/**"] ]})))).

(** The arguments of the call, evaluated from left to right. *)
Definition config_arguments (globals eslint jest : value)
  : completion (list value) :=
  recommended ← (configs ← Get eslint "configs"; Get configs "recommended");
  tests ← tests_config globals jest;
  mret [recommended; tests].

(** [export default tsEslint.config(eslint.configs.recommended, { ... })],
    with the function [tsEslint.config] of [typescript-eslint] as a
    parameter. *)
Definition eslint_config (tsEslint_config : list value → completion value)
    (globals eslint jest : value) : completion value :=
  arguments ← config_arguments globals eslint jest;
  tsEslint_config arguments.

(** [v] is [undefined] or [null]. *)
Definition nullish (v : value) : bool :=
  match v with
  | VUndefined | VNull => true
  | _ => false
  end.

(** The value of [o.p] where the read succeeds. *)
Definition member (o : value) (p : string) : value :=
  match Get o p with
  | Normal v => v
  | Throw _ => VUndefined
  end.

(** Imports to try the module on: a [jest] plugin whose recommended
    flat configuration has plugins, language options and two rules, one
    without flat configurations, and a [globals] with two browser
    globals. *)
Definition jest_plugin : value :=
  VObject {[ "configs" := VObject {[
    "flat/recommended" := VObject {[
      "plugins" := VObject {[ "jest" := VObject ∅ ]};
      "languageOptions" := VObject {[
        "globals" := VObject {[ "expect" := VBoolean false ]} ]};
      "rules" := VObject {[
        "jest/no-focused-tests" := VString "error";
        "jest/expect-expect" := VString "warn" ]} ]} ]} ]}.

Definition jest_plugin_legacy : value :=
  VObject {[ "configs" := VObject {[
    "recommended" := VObject {[
      "rules" := VObject {[ "jest/no-focused-tests" := VString "error" ]} ]} ]} ]}.

Definition globals_package : value :=
  VObject {[ "browser" := VObject {[
    "window" := VBoolean false; "document" := VBoolean false ]} ]}.

Definition eslint_js : value :=
  VObject {[ "configs" := VObject {[
    "recommended" := VObject {[
      "rules" := VObject {[ "no-unused-vars" := VString "error" ]} ]} ]} ]}.

(** ** Properties *)

(** *** The listener, case by case *)

Section Listener.
Context {World : Type}.
Implicit Types (context : RuleContext World) (node : value) (w : World).

(** What one invocation does, by the outcome of reading [node.kind]. *)
Lemma VariableDeclaration_unfold context node w :
  VariableDeclaration context node w =
  match Get node "kind" with
  | Normal kind =>
      if strict_equals_string kind "var"
      then report context node "Unexpected var, use let or const instead." w
      else (Normal tt, w)
  | Throw e => (Throw e, w)
  end.
Proof.
  unfold VariableDeclaration, mbind, js_bind, lift.
  destruct (Get node "kind") as [kind|e]; [|reflexivity].
  destruct (strict_equals_string kind "var"); reflexivity.
Qed.

Lemma VariableDeclaration_reports context node w :
  Get node "kind" = Normal (VString "var") →
  VariableDeclaration context node w =
  report context node "Unexpected var, use let or const instead." w.
Proof. intros Hkind. rewrite VariableDeclaration_unfold, Hkind. reflexivity. Qed.

Lemma VariableDeclaration_skips context node kind w :
  Get node "kind" = Normal kind →
  strict_equals_string kind "var" = false →
  VariableDeclaration context node w = (Normal tt, w).
Proof.
  intros Hkind Hne. rewrite VariableDeclaration_unfold, Hkind, Hne. reflexivity.
Qed.

Lemma VariableDeclaration_throws context node e w :
  Get node "kind" = Throw e →
  VariableDeclaration context node w = (Throw e, w).
Proof. intros Hkind. rewrite VariableDeclaration_unfold, Hkind. reflexivity. Qed.

End Listener.

Lemma strict_equals_string_true v s :
  strict_equals_string v s = true ↔ v = VString s.
Proof.
  destruct v; simpl; try (split; [discriminate | congruence]).
  rewrite bool_decide_eq_true. split; congruence.
Qed.

Lemma strict_equals_string_other s t :
  s ≠ t → strict_equals_string (VString s) t = false.
Proof. intros Hne. simpl. apply bool_decide_eq_false. exact Hne. Qed.

(** *** With the recording context *)

(** The three shapes of [emitted]: one diagnostic for the node itself,
    or none. *)
Lemma emitted_cases node :
  emitted node =
  match Get node "kind" with
  | Normal kind =>
      if strict_equals_string kind "var"
      then [{| diag_node := node;
               diag_message := "Unexpected var, use let or const instead." |}]
      else []
  | Throw _ => []
  end.
Proof.
  unfold emitted. rewrite VariableDeclaration_unfold.
  destruct (Get node "kind") as [kind|e]; [|reflexivity].
  destruct (strict_equals_string kind "var"); reflexivity.
Qed.

(** A visit never looks at the diagnostics already recorded: it appends
    its own and completes the same way whatever came before. *)
Lemma VariableDeclaration_recorder node log :
  VariableDeclaration recorder node log =
  (fst (VariableDeclaration recorder node []), log ++ emitted node).
Proof.
  unfold emitted. rewrite !VariableDeclaration_unfold.
  destruct (Get node "kind") as [kind|e]; simpl.
  - destruct (strict_equals_string kind "var"); simpl;
      [reflexivity | by rewrite app_nil_r].
  - by rewrite app_nil_r.
Qed.

(** C1: for a node whose [kind] is ["var"], one invocation of the
    listener is one call of [context.report] with that node and the
    message ["Unexpected var, use let or const instead."]: for any
    context the invocation does what that single call does, and the
    recording context ends with exactly one more diagnostic, made of the
    node and the message. *)
Theorem VariableDeclaration_var_reports_once (node : value) :
  Get node "kind" = Normal (VString "var") →
  (∀ (World : Type) (context : RuleContext World) (w : World),
      VariableDeclaration context node w =
      report context node "Unexpected var, use let or const instead." w)
  ∧ (∀ log : list diagnostic,
      VariableDeclaration recorder node log =
      (Normal tt,
       log ++ [{| diag_node := node;
                  diag_message := "Unexpected var, use let or const instead." |}]))
  ∧ length (emitted node) = 1.
Proof.
  intros Hkind. split; [|split].
  - intros World context w. by apply VariableDeclaration_reports.
  - intros log. by rewrite VariableDeclaration_reports.
  - by rewrite emitted_cases, Hkind.
Qed.

Lemma VariableDeclaration_var_reports_once_witness :
  Get var_z "kind" = Normal (VString "var")
  ∧ VariableDeclaration recorder var_z [] =
    (Normal tt,
     [{| diag_node := var_z;
         diag_message := "Unexpected var, use let or const instead." |}]).
Proof.
  assert (Hkind : Get var_z "kind" = Normal (VString "var"))
    by (vm_compute; reflexivity).
  split; [exact Hkind|].
  exact (proj1 (proj2 (VariableDeclaration_var_reports_once var_z Hkind)) []).
Defined.

(** C2: for a node whose [kind] is ["let"] or ["const"], an invocation
    of the listener makes no call of [context.report]: whatever the
    context, it completes normally and leaves the engine as it was, and
    no diagnostic is emitted. *)
Theorem VariableDeclaration_let_const_silent (node : value) :
  Get node "kind" = Normal (VString "let")
  ∨ Get node "kind" = Normal (VString "const") →
  (∀ (World : Type) (context : RuleContext World) (w : World),
      VariableDeclaration context node w = (Normal tt, w))
  ∧ emitted node = [].
Proof.
  intros [Hkind|Hkind]; split;
    try (intros World context w;
         by apply (VariableDeclaration_skips _ _ _ _ Hkind));
    by rewrite emitted_cases, Hkind.
Qed.

Lemma VariableDeclaration_let_const_silent_witness :
  (Get let_x "kind" = Normal (VString "let") ∧ emitted let_x = [])
  ∧ (Get const_y "kind" = Normal (VString "const") ∧ emitted const_y = []).
Proof.
  assert (Hlet : Get let_x "kind" = Normal (VString "let"))
    by (vm_compute; reflexivity).
  assert (Hconst : Get const_y "kind" = Normal (VString "const"))
    by (vm_compute; reflexivity).
  split; (split; [assumption|]).
  - exact (proj2 (VariableDeclaration_let_const_silent let_x (or_introl Hlet))).
  - exact (proj2 (VariableDeclaration_let_const_silent const_y (or_intror Hconst))).
Defined.

Lemma emitted_at_most_one (node : value) :
  length (emitted node) ≤ 1.
Proof.
  rewrite emitted_cases.
  destruct (Get node "kind") as [kind|e]; simpl; [|lia].
  destruct (strict_equals_string kind "var"); simpl; lia.
Qed.

(** C3: whatever the node, one invocation of the listener calls
    [context.report] at most once: the recording context ends with the
    diagnostics it had, followed by at most one new one; and with any
    context the invocation either leaves the engine as it was or is a
    single [report] call. *)
Theorem VariableDeclaration_at_most_one_report (node : value) (log : list diagnostic) :
  snd (VariableDeclaration recorder node log) = log ++ emitted node
  ∧ length (emitted node) ≤ 1
  ∧ (∀ (World : Type) (context : RuleContext World) (w : World),
      snd (VariableDeclaration context node w) = w
      ∨ VariableDeclaration context node w =
        report context node "Unexpected var, use let or const instead." w).
Proof.
  split; [|split].
  - by rewrite VariableDeclaration_recorder.
  - apply emitted_at_most_one.
  - intros World context w. rewrite VariableDeclaration_unfold.
    destruct (Get node "kind") as [kind|e]; [|by left].
    destruct (strict_equals_string kind "var"); [by right | by left].
Qed.

(** C4: for every context, the object [create] returns has exactly one
    member: the listener under the key ["VariableDeclaration"], and
    nothing under any other key. *)
Theorem create_registers_VariableDeclaration_only
    (World : Type) (context : RuleContext World) :
  dom (create context) = {[ "VariableDeclaration" ]}
  ∧ size (create context) = 1
  ∧ ∀ t : string,
      create context !! t =
      if decide (t = "VariableDeclaration")
      then Some (VariableDeclaration context) else None.
Proof.
  unfold create. split; [|split].
  - apply dom_singleton_L.
  - apply map_size_singleton.
  - intros t. case_decide as Ht.
    + subst t. apply lookup_singleton_eq.
    + apply lookup_singleton_ne. congruence.
Qed.

(** C5: the listener keeps no state.  Visiting a node gives the same
    completion and the same diagnostics whatever was reported before,
    also when the same node was visited just before; and two nodes with
    the same [kind] are treated alike: with any context, either both
    visits leave the engine untouched and complete the same way, or each
    is the one [report] call for its own node. *)
Theorem VariableDeclaration_stateless (node other : value) :
  Get node "kind" = Get other "kind" →
  (∀ log log' : list diagnostic,
      fst (VariableDeclaration recorder node log) =
      fst (VariableDeclaration recorder node log')
      ∧ snd (VariableDeclaration recorder node log) = log ++ emitted node
      ∧ snd (VariableDeclaration recorder node log') = log' ++ emitted node)
  ∧ (∀ log : list diagnostic,
      VariableDeclaration recorder node
        (snd (VariableDeclaration recorder node log)) =
      (fst (VariableDeclaration recorder node log),
       log ++ emitted node ++ emitted node))
  ∧ fst (VariableDeclaration recorder node []) =
    fst (VariableDeclaration recorder other [])
  ∧ diag_message <$> emitted node = diag_message <$> emitted other
  ∧ (∀ (World : Type) (context : RuleContext World) (w : World),
      (VariableDeclaration context node w = VariableDeclaration context other w
       ∧ snd (VariableDeclaration context node w) = w)
      ∨ (VariableDeclaration context node w =
           report context node "Unexpected var, use let or const instead." w
         ∧ VariableDeclaration context other w =
           report context other "Unexpected var, use let or const instead." w)).
Proof.
  intros Hsame. repeat split.
  - by rewrite (VariableDeclaration_recorder node log),
      (VariableDeclaration_recorder node log').
  - by rewrite VariableDeclaration_recorder.
  - by rewrite VariableDeclaration_recorder.
  - intros log.
    rewrite (VariableDeclaration_recorder node log). simpl.
    rewrite (VariableDeclaration_recorder node (log ++ emitted node)).
    by rewrite app_assoc.
  - rewrite !VariableDeclaration_unfold, Hsame.
    destruct (Get other "kind") as [kind|e]; [|reflexivity].
    destruct (strict_equals_string kind "var"); reflexivity.
  - rewrite !emitted_cases, Hsame.
    destruct (Get other "kind") as [kind|e]; [|reflexivity].
    destruct (strict_equals_string kind "var"); reflexivity.
  - intros World context w.
    rewrite !VariableDeclaration_unfold, Hsame.
    destruct (Get other "kind") as [kind|e]; [|by left].
    destruct (strict_equals_string kind "var"); [by right | by left].
Qed.

Lemma VariableDeclaration_stateless_witness :
  Get var_z "kind" = Get var_a "kind"
  ∧ diag_message <$> emitted var_z = diag_message <$> emitted var_a.
Proof.
  assert (Hsame : Get var_z "kind" = Get var_a "kind")
    by (vm_compute; reflexivity).
  split; [exact Hsame|].
  exact (proj1 (proj2 (proj2 (proj2
    (VariableDeclaration_stateless var_z var_a Hsame))))).
Defined.

(** What the engine does with a declaration node, given the listeners
    of the rule. *)
Lemma dispatch_VariableDeclaration {World : Type}
    (context : RuleContext World) (node : value) :
  Get node "type" = Normal (VString "VariableDeclaration") →
  dispatch (create context) node = VariableDeclaration context node.
Proof.
  intros Htype. unfold dispatch, create.
  by rewrite Htype, lookup_singleton_eq.
Qed.

(** C6: when a traversal visits two declaration nodes of kind ["var"]
    one after the other, as for [var a = 1; var b = 2;], exactly two
    diagnostics are emitted, the first for the first node and the second
    for the second, both with the message
    ["Unexpected var, use let or const instead."]. *)
Theorem traverse_two_var_declarations (first second : value) :
  Get first "type" = Normal (VString "VariableDeclaration") →
  Get first "kind" = Normal (VString "var") →
  Get second "type" = Normal (VString "VariableDeclaration") →
  Get second "kind" = Normal (VString "var") →
  ∀ log : list diagnostic,
    traverse (create recorder) [first; second] log =
    (Normal tt,
     log ++ [ {| diag_node := first;
                 diag_message := "Unexpected var, use let or const instead." |};
              {| diag_node := second;
                 diag_message := "Unexpected var, use let or const instead." |} ])
    ∧ (VariableDeclaration recorder first ;;
       VariableDeclaration recorder second) log =
      traverse (create recorder) [first; second] log.
Proof.
  intros Htype1 Hkind1 Htype2 Hkind2 log.
  assert (Hrun : (VariableDeclaration recorder first ;;
                  VariableDeclaration recorder second) log =
    (Normal tt,
     log ++ [ {| diag_node := first;
                 diag_message := "Unexpected var, use let or const instead." |};
              {| diag_node := second;
                 diag_message := "Unexpected var, use let or const instead." |} ])).
  { unfold mbind, js_bind.
    rewrite (VariableDeclaration_reports recorder first log Hkind1). simpl.
    rewrite (VariableDeclaration_reports recorder second _ Hkind2). simpl.
    by rewrite <- app_assoc. }
  assert (Htraverse : traverse (create recorder) [first; second] log =
    (VariableDeclaration recorder first ;;
     VariableDeclaration recorder second) log).
  { simpl. rewrite !dispatch_VariableDeclaration by assumption.
    unfold mbind, js_bind, mret, js_ret.
    destruct (VariableDeclaration recorder first log) as [[[]|e] log1];
      [|reflexivity].
    by destruct (VariableDeclaration recorder second log1) as [[[]|e] log2]. }
  split; [by rewrite Htraverse | by rewrite Htraverse].
Qed.

Lemma traverse_two_var_declarations_witness :
  traverse (create recorder) [var_a; var_b] [] =
  (Normal tt,
   [ {| diag_node := var_a;
        diag_message := "Unexpected var, use let or const instead." |};
     {| diag_node := var_b;
        diag_message := "Unexpected var, use let or const instead." |} ]).
Proof.
  refine (proj1 (traverse_two_var_declarations var_a var_b _ _ _ _ []));
    vm_compute; reflexivity.
Defined.

(** C7: the metadata of the rule is made of the type ["problem"], a
    description, a category and the flag [recommended: true] (the last
    three under [docs]) and a schema that is the empty array, so that no
    option is described; there is no other member. *)
Theorem meta_members (World : Type) :
  ∃ members docs : gmap string value,
    Rule.meta (@plugin World) = VObject members
    ∧ dom members = {[ "type"; "docs"; "schema" ]}
    ∧ members !! "type" = Some (VString "problem")
    ∧ members !! "docs" = Some (VObject docs)
    ∧ members !! "schema" = Some (VArray [])
    ∧ dom docs = {[ "description"; "category"; "recommended" ]}
    ∧ docs !! "description" = Some (VString "disallow the use of 'var'")
    ∧ docs !! "category" = Some (VString "Best Practices")
    ∧ docs !! "recommended" = Some (VBoolean true).
Proof.
  eexists _, _. split; [reflexivity|].
  split; [rewrite !dom_insert_L, dom_singleton_L; set_solver|].
  do 3 (split; [reflexivity|]).
  split; [rewrite !dom_insert_L, dom_singleton_L; set_solver|].
  repeat split.
Qed.

(** C8: on a node that carries a [kind] member the listener cannot
    fail.  Reading the member yields a value; with any context the
    invocation either does nothing at all or is the one [report] call,
    so that the only effect, and the only possible exception, is that of
    the call; with the recording context it completes normally with at
    most one new diagnostic. *)
Theorem VariableDeclaration_cannot_fail (node : value) :
  carries_kind node →
  (∃ kind : value, Get node "kind" = Normal kind)
  ∧ (∀ (World : Type) (context : RuleContext World) (w : World),
      VariableDeclaration context node w = (Normal tt, w)
      ∨ VariableDeclaration context node w =
        report context node "Unexpected var, use let or const instead." w)
  ∧ (∀ log : list diagnostic,
      VariableDeclaration recorder node log = (Normal tt, log ++ emitted node)
      ∧ length (emitted node) ≤ 1).
Proof.
  intros Hkind.
  destruct node as [| | | | | |props]; try contradiction.
  destruct Hkind as [kind Hkind].
  assert (Hget : Get (VObject props) "kind" = Normal kind)
    by (simpl; by rewrite Hkind).
  split; [by exists kind|]. split.
  - intros World context w. rewrite VariableDeclaration_unfold, Hget.
    destruct (strict_equals_string kind "var"); [by right | by left].
  - intros log. split.
    + rewrite VariableDeclaration_recorder. f_equal.
      rewrite VariableDeclaration_unfold, Hget.
      by destruct (strict_equals_string kind "var").
    + apply (emitted_at_most_one (VObject props)).
Qed.

Lemma VariableDeclaration_cannot_fail_witness :
  carries_kind var_z
  ∧ VariableDeclaration recorder var_z [] = (Normal tt, [] ++ emitted var_z).
Proof.
  assert (Hkind : carries_kind var_z) by (vm_compute; eexists; reflexivity).
  split; [exact Hkind|].
  exact (proj1 (proj2 (proj2 (VariableDeclaration_cannot_fail var_z Hkind)) [])).
Defined.

(** C9: on a declaration node without a [kind] member, or whose [kind]
    is [undefined], the listener does not fail and emits nothing: the
    comparison with ["var"] is false.  Whatever the context, the
    invocation completes normally and leaves the engine as it was. *)
Theorem VariableDeclaration_missing_kind_silent (props : gmap string value) :
  props !! "kind" = None ∨ props !! "kind" = Some VUndefined →
  strict_equals_string (default VUndefined (props !! "kind")) "var" = false
  ∧ (∀ (World : Type) (context : RuleContext World) (w : World),
      VariableDeclaration context (VObject props) w = (Normal tt, w))
  ∧ emitted (VObject props) = [].
Proof.
  intros Hkind.
  assert (Hget : Get (VObject props) "kind" = Normal VUndefined)
    by (destruct Hkind as [Hkind|Hkind]; simpl; by rewrite Hkind).
  split; [|split].
  - by destruct Hkind as [-> | ->].
  - intros World context w. by rewrite VariableDeclaration_unfold, Hget.
  - by rewrite emitted_cases, Hget.
Qed.

Lemma VariableDeclaration_missing_kind_silent_witness :
  ({[ "type" := VString "VariableDeclaration" ]} : gmap string value) !! "kind"
    = None
  ∧ emitted (VObject {[ "type" := VString "VariableDeclaration" ]}) = [].
Proof.
  assert (Hkind :
    ({[ "type" := VString "VariableDeclaration" ]} : gmap string value) !! "kind"
      = None) by (vm_compute; reflexivity).
  split; [exact Hkind|].
  exact (proj2 (proj2
    (VariableDeclaration_missing_kind_silent _ (or_introl Hkind)))).
Defined.

(** C10: the test on [kind] is an exact comparison of strings.  On a
    node whose [kind] is a string other than ["var"], differing if only
    by case or by a space, the listener emits nothing: whatever the
    context, the invocation completes normally and leaves the engine as
    it was. *)
Theorem VariableDeclaration_other_string_silent (node : value) (kind : string) :
  Get node "kind" = Normal (VString kind) →
  kind ≠ "var" →
  (∀ (World : Type) (context : RuleContext World) (w : World),
      VariableDeclaration context node w = (Normal tt, w))
  ∧ emitted node = [].
Proof.
  intros Hkind Hne.
  pose proof (strict_equals_string_other kind "var" Hne) as Hcmp.
  split.
  - intros World context w.
    by apply (VariableDeclaration_skips _ _ _ _ Hkind).
  - by rewrite emitted_cases, Hkind, Hcmp.
Qed.

Lemma VariableDeclaration_other_string_silent_witness :
  emitted (Declaration "Var" [] 0 0) = []
  ∧ emitted (Declaration "VAR" [] 0 0) = []
  ∧ emitted (Declaration " var" [] 0 0) = [].
Proof.
  split; [|split].
  - refine (proj2 (VariableDeclaration_other_string_silent
                     (Declaration "Var" [] 0 0) "Var" _ _));
      [vm_compute; reflexivity | discriminate].
  - refine (proj2 (VariableDeclaration_other_string_silent
                     (Declaration "VAR" [] 0 0) "VAR" _ _));
      [vm_compute; reflexivity | discriminate].
  - refine (proj2 (VariableDeclaration_other_string_silent
                     (Declaration " var" [] 0 0) " var" _ _));
      [vm_compute; reflexivity | discriminate].
Defined.

(** ** The cases of the test file, and the edges of the model *)

(** [valid: [{ code: "let x = 5;" }, { code: "const y = 10;" }]] *)
Example valid_let_x : traverse (create recorder) [let_x] [] = (Normal tt, []).
Proof. vm_compute. reflexivity. Qed.

Example valid_const_y : traverse (create recorder) [const_y] [] = (Normal tt, []).
Proof. vm_compute. reflexivity. Qed.

(** [invalid: [{ code: "var z = 15;", errors: [{ message: "..." }] }]] *)
Example invalid_var_z :
  diag_message <$> snd (traverse (create recorder) [var_z] []) =
  ["Unexpected var, use let or const instead."].
Proof. vm_compute. reflexivity. Qed.

(** A whole walk of [var a = 1; var b = 2;]: the nodes that are not
    declarations have no listener and add nothing. *)
Example walk_var_a_var_b :
  traverse (create recorder) var_a_var_b_nodes [] =
  (Normal tt,
   [ {| diag_node := var_a;
        diag_message := "Unexpected var, use let or const instead." |};
     {| diag_node := var_b;
        diag_message := "Unexpected var, use let or const instead." |} ]).
Proof. vm_compute. reflexivity. Qed.

(** The listener does have a failing branch: it is taken when the
    argument is not a node at all. *)
Example VariableDeclaration_undefined :
  VariableDeclaration recorder VUndefined [] =
  (Throw (TypeError "Cannot read properties of undefined (reading 'kind')"), []).
Proof. reflexivity. Qed.

(** A [kind] that is not a string is never equal to ["var"]. *)
Example VariableDeclaration_kind_number :
  emitted (VObject {[ "kind" := VNumber 0 ]}) = [].
Proof. vm_compute. reflexivity. Qed.

(** ** A whole traversal *)

(** What the engine's visit of one node amounts to with the listeners of
    the rule: the [report] call when the node declares a [var], nothing
    otherwise, also when the visited value is not a node. *)
Lemma dispatch_create {World : Type} (context : RuleContext World)
    (node : value) (w : World) :
  dispatch (create context) node w =
  if declares_var node
  then report context node "Unexpected var, use let or const instead." w
  else (Normal tt, w).
Proof.
  unfold dispatch, declares_var, create.
  destruct node as [| | | | | |props]; try reflexivity.
  cbn [Get].
  destruct (default VUndefined (props !! "type")) as [| | | |t| |];
    try reflexivity.
  simpl strict_equals_string. case_bool_decide as Ht.
  - subst t. rewrite lookup_singleton_eq, VariableDeclaration_unfold.
    reflexivity.
  - rewrite lookup_singleton_ne by congruence. reflexivity.
Qed.

(** X1: over any sequence of visited nodes, the rule reports exactly the
    nodes that declare a [var], once each and in the order of the
    visit, with the fixed message, after what was reported before; the
    traversal completes normally. *)
Theorem traverse_reports_every_var_declaration
    (nodes : list value) (log : list diagnostic) :
  traverse (create recorder) nodes log =
  (Normal tt,
   log ++ (unexpected_var <$> filter (λ node, declares_var node) nodes)).
Proof.
  revert log. induction nodes as [|node nodes IH]; intros log.
  - simpl. by rewrite app_nil_r.
  - cbn [traverse]. unfold mbind, js_bind.
    rewrite dispatch_create, filter_cons.
    destruct (declares_var node) eqn:Hvar; simpl.
    + rewrite IH. by rewrite <- app_assoc.
    + by rewrite IH.
Qed.



(** ** The configuration module *)

Lemma Get_succeeds (o : value) (p : string) :
  (∃ v, Get o p = Normal v) ↔ nullish o = false.
Proof.
  destruct o; simpl; split; intros H; try done; try (by eexists);
    by destruct H.
Qed.

Lemma Get_member (o : value) (p : string) (v : value) :
  Get o p = Normal v → member o p = v.
Proof. unfold member. by intros ->. Qed.

Lemma member_nullish (o : value) (p : string) :
  nullish o = true → member o p = VUndefined.
Proof. by destruct o. Qed.

Lemma flat_recommended_member (jest recommended : value) :
  flat_recommended jest = Normal recommended →
  recommended = member (member jest "configs") "flat/recommended".
Proof.
  unfold flat_recommended, mbind, completion_bind.
  destruct (Get jest "configs") as [configs|e] eqn:Hconfigs; [|done].
  intros Hget. by rewrite (Get_member _ _ _ Hconfigs), (Get_member _ _ _ Hget).
Qed.

(** The steps of [tests_config] when it succeeds. *)
Lemma tests_config_Normal (globals jest entry : value) :
  tests_config globals jest = Normal entry →
  ∃ recommended rules options : value,
    flat_recommended jest = Normal recommended
    ∧ Get recommended "rules" = Normal rules
    ∧ languageOptions globals = Normal options
    ∧ entry = VObject
        (<[ "languageOptions" := options ]>
          (<[ "rules" := VObject (spread rules) ]>
            (spread recommended ∪ {[ "files" := VArray [VString "tests/**"] ]}))).
Proof.
  unfold tests_config, mbind, completion_bind, mret, completion_ret.
  destruct (flat_recommended jest) as [recommended|e]; [|done].
  destruct (Get recommended "rules") as [rules|e] eqn:Hrules; [|done].
  destruct (languageOptions globals) as [options|e]; [|done].
  intros [= <-]. exists recommended, rules, options. auto.
Qed.

(** X3: in the configuration for the tests, [languageOptions] is the
    one written in the module and owes nothing to the [jest]
    configuration that was spread before it, whose own
    [languageOptions] is replaced as a whole.  Its [ecmaVersion] is
    ["latest"]; its [globals] are those of [globals.browser], with
    [jest: true] added only when the browser globals have no [jest]. *)
Theorem tests_config_languageOptions (globals jest entry : value) :
  tests_config globals jest = Normal entry →
  Get entry "languageOptions" = languageOptions globals
  ∧ ∃ (browser : value) (names : gmap string value),
      Get globals "browser" = Normal browser
      ∧ member (member entry "languageOptions") "globals" = VObject names
      ∧ member (member (member entry "languageOptions") "parserOptions")
          "ecmaVersion" = VString "latest"
      ∧ ∀ name : string,
          names !! name =
          match spread browser !! name with
          | Some access => Some access
          | None => if decide (name = "jest") then Some (VBoolean true) else None
          end.
Proof.
  intros Hentry.
  destruct (tests_config_Normal _ _ _ Hentry)
    as (recommended & rules & options & _ & _ & Hoptions & ->).
  split; [cbn [Get]; by rewrite lookup_insert_eq, Hoptions|].
  revert Hoptions. unfold languageOptions, mbind, completion_bind, mret, completion_ret.
  destruct (Get globals "browser") as [browser|e]; [|done].
  intros [= <-].
  exists browser, (spread browser ∪ {[ "jest" := VBoolean true ]}).
  split; [done|]. split; [|split].
  - unfold member. simpl. rewrite lookup_insert_eq. simpl.
    by rewrite lookup_insert_ne, lookup_singleton_eq.
  - unfold member. simpl. rewrite lookup_insert_eq. simpl.
    rewrite lookup_insert_eq. simpl. by rewrite lookup_singleton_eq.
  - intros name. rewrite lookup_union.
    destruct (spread browser !! name) as [access|]; simpl.
    + by destruct ({[ "jest" := VBoolean true ]} !! name).
    + case_decide as Hname.
      * subst name. by rewrite lookup_singleton_eq.
      * rewrite lookup_singleton_ne by congruence. done.
Qed.

Lemma tests_config_languageOptions_witness :
  ∃ entry : value,
    tests_config globals_package jest_plugin = Normal entry
    ∧ Get entry "languageOptions" = languageOptions globals_package.
Proof.
  eexists. split; [vm_compute; reflexivity|].
  refine (proj1 (tests_config_languageOptions globals_package jest_plugin _ _)).
  vm_compute. reflexivity.
Defined.

(** X4: the other members of the configuration for the tests are those
    of the [jest] configuration, which is spread after [files]: a
    [files] member of the [jest] configuration replaces ["tests/**"],
    which applies only when there is none.  Nothing else is added: the
    members are those of the [jest] configuration and [files], [rules]
    and [languageOptions]. *)
Theorem tests_config_other_members (globals jest entry : value) :
  tests_config globals jest = Normal entry →
  ∃ members : gmap string value,
    entry = VObject members
    ∧ dom members =
      dom (spread (member (member jest "configs") "flat/recommended"))
      ∪ {[ "files"; "rules"; "languageOptions" ]}
    ∧ ∀ name : string,
        name ≠ "rules" → name ≠ "languageOptions" →
        members !! name =
        match spread (member (member jest "configs") "flat/recommended") !! name with
        | Some v => Some v
        | None =>
            if decide (name = "files")
            then Some (VArray [VString "tests/**"]) else None
        end.
Proof.
  intros Hentry.
  destruct (tests_config_Normal _ _ _ Hentry)
    as (recommended & rules & options & Hrecommended & _ & _ & ->).
  rewrite <- (flat_recommended_member _ _ Hrecommended).
  eexists. split; [reflexivity|]. split.
  - rewrite !dom_insert_L, dom_union_L, dom_singleton_L.
    apply set_eq. intros name.
    rewrite !elem_of_union, !elem_of_singleton. tauto.
  - intros name Hrules Hoptions.
    rewrite !lookup_insert_ne by congruence. rewrite lookup_union.
    destruct (spread recommended !! name) as [v|]; simpl.
    + by destruct ({[ "files" := VArray [VString "tests/**"] ]} !! name).
    + case_decide as Hname.
      * subst name. by rewrite lookup_singleton_eq.
      * rewrite lookup_singleton_ne by congruence. done.
Qed.

Lemma tests_config_other_members_witness :
  ∃ members : gmap string value,
    tests_config globals_package jest_plugin = Normal (VObject members)
    ∧ members !! "files" = Some (VArray [VString "tests/**"])
    ∧ members !! "plugins" = Some (VObject {[ "jest" := VObject ∅ ]}).
Proof.
  assert (Hentry : ∃ entry, tests_config globals_package jest_plugin = Normal entry)
    by (eexists; vm_compute; reflexivity).
  destruct Hentry as [entry Hentry].
  destruct (tests_config_other_members _ _ _ Hentry)
    as (members & -> & _ & Hmembers).
  exists members. split; [exact Hentry|]. split.
  - rewrite (Hmembers "files") by discriminate. vm_compute. reflexivity.
  - rewrite (Hmembers "plugins") by discriminate. vm_compute. reflexivity.
Defined.

(** X5: the [rules] of the configuration for the tests are a copy of
    the rules of the [jest] configuration, in place of the member the
    spread had brought: the same rules when these are an object, and no
    rule at all, without an error, when the [jest] configuration has no
    [rules]. *)
Theorem tests_config_rules (globals jest entry : value) :
  tests_config globals jest = Normal entry →
  let recommended := member (member jest "configs") "flat/recommended" in
  nullish recommended = false
  ∧ Get entry "rules" = Normal (VObject (spread (member recommended "rules")))
  ∧ (∀ rules : gmap string value,
       Get recommended "rules" = Normal (VObject rules) →
       Get entry "rules" = Normal (VObject rules))
  ∧ (nullish (member recommended "rules") = true →
     Get entry "rules" = Normal (VObject ∅)).
Proof.
  intros Hentry.
  destruct (tests_config_Normal _ _ _ Hentry)
    as (recommended & rules & options & Hrecommended & Hrules & _ & ->).
  rewrite <- (flat_recommended_member _ _ Hrecommended). cbn zeta.
  rewrite (Get_member _ _ _ Hrules).
  assert (Hget : Get (VObject
        (<[ "languageOptions" := options ]>
          (<[ "rules" := VObject (spread rules) ]>
            (spread recommended ∪ {[ "files" := VArray [VString "tests/**"] ]}))))
      "rules" = Normal (VObject (spread rules))).
  { cbn [Get]. by rewrite lookup_insert_ne, lookup_insert_eq. }
  split; [|split; [|split]].
  - apply (proj1 (Get_succeeds recommended "rules")). by exists rules.
  - exact Hget.
  - intros rules' Hrules'. rewrite Hget.
    rewrite Hrules in Hrules'. by injection Hrules' as ->.
  - intros Hnull. rewrite Hget. by destruct rules.
Qed.

Lemma tests_config_rules_witness :
  ∃ entry : value,
    tests_config globals_package jest_plugin = Normal entry
    ∧ Get entry "rules" =
      Normal (VObject {[ "jest/no-focused-tests" := VString "error";
                         "jest/expect-expect" := VString "warn" ]}).
Proof.
  assert (Hentry : ∃ entry, tests_config globals_package jest_plugin = Normal entry)
    by (eexists; vm_compute; reflexivity).
  destruct Hentry as [entry Hentry].
  exists entry. split; [exact Hentry|].
  apply (proj1 (proj2 (proj2 (tests_config_rules _ _ _ Hentry)))).
  vm_compute. reflexivity.
Defined.

Lemma Get_defined (o : value) (p : string) :
  nullish o = false → Get o p = Normal (member o p).
Proof. unfold member. by destruct o. Qed.

Lemma member_defined (o : value) (p : string) :
  nullish (member o p) = false → nullish o = false.
Proof. by destruct o. Qed.

Lemma completion_bind_Normal {A B : Type} (m : completion A)
    (k : A → completion B) (b : B) :
  m ≫= k = Normal b ↔ ∃ a, m = Normal a ∧ k a = Normal b.
Proof.
  unfold mbind, completion_bind. destruct m as [a|e]; split.
  - intros Hk. by exists a.
  - by intros (a' & [= <-] & Hk).
  - done.
  - by intros (a' & [=] & _).
Qed.

(** X6: the arguments of [tsEslint.config] can be evaluated exactly
    when [eslint.configs] and [jest.configs["flat/recommended"]] are
    there (neither [undefined] nor [null], which asks the same of
    [eslint], [jest] and [jest.configs]) and [globals] is.  There are
    then two of them, the first being [eslint.configs.recommended] and
    the second the configuration for the tests. *)
Theorem config_arguments_succeeds_iff (globals eslint jest : value) :
  ((∃ arguments, config_arguments globals eslint jest = Normal arguments)
   ↔ nullish (member eslint "configs") = false
     ∧ nullish (member (member jest "configs") "flat/recommended") = false
     ∧ nullish globals = false)
  ∧ ∀ arguments : list value,
      config_arguments globals eslint jest = Normal arguments →
      ∃ tests : value,
        arguments = [member (member eslint "configs") "recommended"; tests]
        ∧ tests_config globals jest = Normal tests.
Proof.
  split; [split|].
  - intros [arguments Harguments].
    apply completion_bind_Normal in Harguments
      as (first & Hfirst & Harguments).
    apply completion_bind_Normal in Hfirst as (configs & Hconfigs & Hfirst).
    apply completion_bind_Normal in Harguments as (tests & Htests & _).
    destruct (tests_config_Normal _ _ _ Htests)
      as (recommended & rules & options & Hrecommended & Hrules & Hoptions & _).
    apply completion_bind_Normal in Hoptions as (browser & Hbrowser & _).
    rewrite <- (flat_recommended_member _ _ Hrecommended).
    rewrite (Get_member _ _ _ Hconfigs).
    split; [|split].
    + apply (proj1 (Get_succeeds configs "recommended")). by exists first.
    + apply (proj1 (Get_succeeds recommended "rules")). by exists rules.
    + apply (proj1 (Get_succeeds globals "browser")). by exists browser.
  - intros (Heslint & Hjest & Hglobals).
    pose proof (member_defined _ _ Hjest) as Hconfigs.
    unfold config_arguments, tests_config, flat_recommended, languageOptions.
    rewrite (Get_defined eslint "configs") by by apply member_defined in Heslint.
    rewrite (Get_defined jest "configs") by by apply member_defined in Hconfigs.
    rewrite (Get_defined globals "browser") by done.
    unfold mbind, completion_bind, mret, completion_ret.
    rewrite (Get_defined _ "recommended") by done.
    rewrite (Get_defined _ "flat/recommended") by done.
    rewrite (Get_defined _ "rules") by done.
    by eexists.
  - intros arguments Harguments.
    apply completion_bind_Normal in Harguments
      as (first & Hfirst & Harguments).
    apply completion_bind_Normal in Hfirst as (configs & Hconfigs & Hfirst).
    apply completion_bind_Normal in Harguments as (tests & Htests & [= <-]).
    exists tests. split; [|done].
    by rewrite (Get_member _ _ _ Hconfigs), (Get_member _ _ _ Hfirst).
Qed.

(** X7: with a [jest] plugin whose [configs] has no
    ["flat/recommended"] member, evaluating the module throws the
    [TypeError] of reading [rules] of [undefined]: spreading the missing
    configuration passes silently, reading its [rules] does not.
    [tsEslint.config] is not called, whatever it is. *)
Theorem eslint_config_without_flat_recommended
    (tsEslint_config : list value → completion value)
    (globals eslint jest : value) (configs : gmap string value) :
  nullish (member eslint "configs") = false →
  Get jest "configs" = Normal (VObject configs) →
  configs !! "flat/recommended" = None →
  eslint_config tsEslint_config globals eslint jest =
  Throw (TypeError "Cannot read properties of undefined (reading 'rules')").
Proof.
  intros Heslint Hconfigs Hmissing.
  unfold eslint_config, config_arguments, tests_config, flat_recommended.
  rewrite (Get_defined eslint "configs") by by apply member_defined in Heslint.
  rewrite Hconfigs.
  unfold mbind, completion_bind, mret, completion_ret.
  rewrite (Get_defined _ "recommended") by done.
  cbn [Get]. by rewrite Hmissing.
Qed.

Lemma eslint_config_without_flat_recommended_witness :
  eslint_config (λ arguments, Normal (VArray arguments))
    globals_package eslint_js jest_plugin_legacy =
  Throw (TypeError "Cannot read properties of undefined (reading 'rules')").
Proof.
  refine (eslint_config_without_flat_recommended _
            globals_package eslint_js jest_plugin_legacy
            {[ "recommended" := VObject {[
                 "rules" := VObject {[ "jest/no-focused-tests" := VString "error" ]} ]} ]}
            _ _ _); vm_compute; reflexivity.
Defined.

(** ** The configuration module on sample imports *)

Example spread_array :
  spread (VArray [VNumber 7; VNumber 8]) =
  {[ "0" := VNumber 7; "1" := VNumber 8 ]}.
Proof. vm_compute. reflexivity. Qed.

Example spread_string :
  spread (VString "ab") = {[ "0" := VString "a"; "1" := VString "b" ]}.
Proof. vm_compute. reflexivity. Qed.

Example eslint_config_sample :
  eslint_config (λ arguments, Normal (VArray arguments))
    globals_package eslint_js jest_plugin =
  Normal (VArray [
    VObject {[ "rules" := VObject {[ "no-unused-vars" := VString "error" ]} ]};
    VObject {[
      "files" := VArray [VString "tests/**"];
      "plugins" := VObject {[ "jest" := VObject ∅ ]};
      "rules" := VObject {[
        "jest/no-focused-tests" := VString "error";
        "jest/expect-expect" := VString "warn" ]};
      "languageOptions" := VObject {[
        "parserOptions" := VObject {[ "ecmaVersion" := VString "latest" ]};
        "globals" := VObject {[
          "jest" := VBoolean true;
          "window" := VBoolean false; "document" := VBoolean false ]} ]} ]} ]).
Proof. vm_compute. reflexivity. Qed.
